(** * website/models.py: save hooks of the lab website models

    Every model of [website/models.py] overrides [save].  The four
    content models (WebsiteSection, NewsPost, Profile, BlogPost) expand
    their Markdown field with [markdown.markdown], filter the result with
    [bleach.clean] against two module-level allow-lists, store the result
    on the instance, clear the process-wide cache and delegate to the
    framework's [Model.save].  Publication, Course and CarouselImage only
    stamp [modified], clear the cache and delegate.

    [markdown], [bleach], the cache backend and [Model.save] are
    third-party code.  The two library functions and the constant
    [bleach.ALLOWED_TAGS] are parameters of the development; the cache
    is modelled by its effect on a [World] that also keeps the
    chronological list of effects, among them the calls of the
    framework's save; what such a call writes to the Markdown and HTML
    columns of the stored row is modelled apart. *)

From Stdlib Require Import String Ascii List ZArith Bool Lia.
From stdpp Require Import gmap strings pretty.

Local Open Scope string_scope.

(** ** Python values used by the module *)

(** [datetime.datetime] values, as a count of microseconds. *)
Definition datetime := Z.

(** A raised exception: its class name and its message. *)
Record exn := Exception { exn_class : string; exn_msg : string }.

(** The outcome of a call: a value, or a raised exception. *)
Inductive outcome (A : Type) :=
| Return (a : A)
| Raise (e : exn).
Arguments Return {A} a.
Arguments Raise {A} e.

(** The positional and keyword arguments of a call to [save], which
    every [save] forwards untouched to the parent class. *)
Record call_args := CallArgs {
  positional : list string;
  keywords : list (string * string)
}.

Definition no_args : call_args := CallArgs [] [].

(** ** The model classes: one record per class, one field per attribute *)

Module WebsiteSection.
Record t := Build {
  title : string;
  body_markdown : string;
  body_html : string;
  created : option datetime;
  modified : option datetime;
  website_position_id : string;
  section_type : string;
  show_in_nav : bool
}.
Definition SECTION_TYPE_CHOICES : list (string * string) :=
  [("fixed", "Fixed Section"); ("page", "Page")].
Definition set_body_html (v : string) (r : t) : t :=
  Build (title r) (body_markdown r) v (created r) (modified r)
        (website_position_id r) (section_type r) (show_in_nav r).
Definition set_modified (v : datetime) (r : t) : t :=
  Build (title r) (body_markdown r) (body_html r) (created r) (Some v)
        (website_position_id r) (section_type r) (show_in_nav r).
End WebsiteSection.

Module NewsPost.
Record t := Build {
  title : string;
  body_markdown : string;
  body_html : string;
  description : string;
  post_date : datetime;
  created : option datetime;
  modified : option datetime
}.
Definition set_body_html (v : string) (r : t) : t :=
  Build (title r) (body_markdown r) v (description r) (post_date r)
        (created r) (modified r).
Definition set_modified (v : datetime) (r : t) : t :=
  Build (title r) (body_markdown r) (body_html r) (description r)
        (post_date r) (created r) (Some v).
End NewsPost.

Module Publication.
Record t := Build {
  title : string;
  url : string;
  author : string;
  doi : option string;
  entry_type : option string;
  published_in : option string;
  publisher : option string;
  year_of_publication : option string;
  month_of_publication : option string;
  bibtex : option string;
  project_url : option string;
  pdf : option string;
  abstract : option string;
  is_highlighted : bool;
  created : option datetime;
  modified : option datetime
}.
Definition set_modified (v : datetime) (r : t) : t :=
  Build (title r) (url r) (author r) (doi r) (entry_type r)
        (published_in r) (publisher r) (year_of_publication r)
        (month_of_publication r) (bibtex r) (project_url r) (pdf r)
        (abstract r) (is_highlighted r) (created r) (Some v).
End Publication.

Module Course.
Record t := Build {
  title : string;
  acronym : string;
  level : string;
  prerequisite : string;
  description : string;
  syllabus : option string;
  created : option datetime;
  modified : option datetime
}.
Definition set_modified (v : datetime) (r : t) : t :=
  Build (title r) (acronym r) (level r) (prerequisite r) (description r)
        (syllabus r) (created r) (Some v).
End Course.

Module CarouselImage.
Record t := Build {
  image_caption : string;
  image_description : option string;
  target_url : option string;
  image_url : string;
  display_description : bool;
  created : option datetime;
  modified : option datetime
}.
Definition set_modified (v : datetime) (r : t) : t :=
  Build (image_caption r) (image_description r) (target_url r)
        (image_url r) (display_description r) (created r) (Some v).
End CarouselImage.

Module Profile.
(** [user] and [position] are foreign keys, kept as primary keys.
    [profile_page_markdown] is declared [null=True]: it may be [None],
    and is [None] when the constructor is not given a value. *)
Record t := Build {
  user : Z;
  full_name : string;
  avatar_img : option string;
  contactNumber : option string;
  emailId : option string;
  contactURL : option string;
  description : option string;
  position : option Z;
  profile_page_markdown : option string;
  profile_page_html : option string
}.
Definition set_profile_page_html (v : string) (r : t) : t :=
  Build (user r) (full_name r) (avatar_img r) (contactNumber r)
        (emailId r) (contactURL r) (description r) (position r)
        (profile_page_markdown r) (Some v).
End Profile.

Module BlogPost.
Record t := Build {
  title : string;
  identifier : string;
  body : string;
  posted : option datetime;
  author : Z;
  body_html : option string
}.
Definition set_body_html (v : string) (r : t) : t :=
  Build (title r) (identifier r) (body r) (posted r) (author r) (Some v).
End BlogPost.

(** Any instance that is handed to the framework's [Model.save]. *)
Inductive instance :=
| AWebsiteSection (r : WebsiteSection.t)
| ANewsPost (r : NewsPost.t)
| APublication (r : Publication.t)
| ACourse (r : Course.t)
| ACarouselImage (r : CarouselImage.t)
| AProfile (r : Profile.t)
| ABlogPost (r : BlogPost.t).

(** ** The world a [save] runs in *)

(** What a [save] does to its surroundings, in the order it does it:
    a call of [print] with its argument, a call of [cache.clear], a call
    of the framework's [save] with the instance and the arguments it is
    given. *)
Inductive effect :=
| Printed (text : string)
| CacheCleared
| ModelSaved (row : instance) (args : call_args).

(** [cache] is [django.core.cache.cache], one per process and shared by
    all models; [clock] is what [datetime.datetime.now()] reads;
    [effects] lists what has been done so far, oldest first. *)
Record World := MkWorld {
  cache : gmap string string;
  clock : datetime;
  effects : list effect
}.

Definition emit (e : effect) (w : World) : World :=
  MkWorld (cache w) (clock w) (effects w ++ [e]).

(** The same world at another time of day. *)
Definition set_clock (t : datetime) (w : World) : World :=
  MkWorld (cache w) t (effects w).

(** ** Method bodies: state (the instance and the world) and exceptions

    A method body of class [T] reads and assigns the attributes of
    [self] and acts on the world.  A raised exception stops the body and
    leaves [self] and the world as they are at that point: nothing is
    rolled back. *)

Definition M (T A : Type) : Type := T -> World -> outcome A * T * World.

Definition ret {T A} (a : A) : M T A := fun self w => (Return a, self, w).

Definition bind {T A B} (m : M T A) (k : A -> M T B) : M T B :=
  fun self w =>
    match m self w with
    | (Return a, self', w') => k a self' w'
    | (Raise e, self', w') => (Raise e, self', w')
    end.

Notation "x <- m ;; k" := (bind m (fun x => k))
  (at level 100, m at next level, right associativity).
Notation "m ;;; k" := (bind m (fun _ => k))
  (at level 100, right associativity).

(** [self.attr], read. *)
Definition attr {T A} (f : T -> A) : M T A :=
  fun self w => (Return (f self), self, w).

(** [self.attr = v], through the setter of the attribute. *)
Definition assign {T} (set : T -> T) : M T unit :=
  fun self w => (Return tt, set self, w).

(** The result of a call into a library that may raise. *)
Definition call {T A} (r : outcome A) : M T A :=
  fun self w => (r, self, w).

(** [print(s)]: one call, whatever the number of lines in [s]. *)
Definition print {T} (s : string) : M T unit :=
  fun self w => (Return tt, self, emit (Printed s) w).

(** [datetime.datetime.now()]: the reading of the clock at the call.  A
    [save] reads the clock at most once, and the passing of time between
    two calls is for the caller to put into the world. *)
Definition datetime_now {T} : M T datetime :=
  fun self w => (Return (clock w), self, w).

(** [cache.clear()]: every key goes, whatever it is. *)
Definition cache_clear {T} : M T unit :=
  fun self w =>
    (Return tt, self, MkWorld ∅ (clock w) (effects w ++ [CacheCleared])).

(** The call to the parent class's [save] with the forwarded arguments:
    the framework receives the instance as it is at that point.  Only
    the call is recorded here.  What the framework then does, which
    columns it writes, whether the database accepts them, what it puts
    on the instance at an insert, is no part of the module; what it
    writes to the Markdown and HTML columns is [Model_save_writes]
    below. *)
Definition Model_save {T} (as_instance : T -> instance) (args : call_args)
  : M T unit :=
  fun self w => (Return tt, self, emit (ModelSaved (as_instance self) args) w).


(** ** The four content models, seen through their common shape

    The spec calls ContentRecord what WebsiteSection, NewsPost, Profile
    and BlogPost share: a Markdown attribute and the HTML attribute that
    [save] derives from it. *)

Inductive ContentRecord :=
| OfWebsiteSection (r : WebsiteSection.t)
| OfNewsPost (r : NewsPost.t)
| OfProfile (r : Profile.t)
| OfBlogPost (r : BlogPost.t).

(** The attribute each [save] hands to [markdown.markdown]. *)
Definition source_text (c : ContentRecord) : option string :=
  match c with
  | OfWebsiteSection r => Some (WebsiteSection.body_markdown r)
  | OfNewsPost r => Some (NewsPost.body_markdown r)
  | OfProfile r => Profile.profile_page_markdown r
  | OfBlogPost r => Some (BlogPost.body r)
  end.

(** The attribute each [save] assigns the filtered HTML to. *)
Definition rendered_html (c : ContentRecord) : option string :=
  match c with
  | OfWebsiteSection r => Some (WebsiteSection.body_html r)
  | OfNewsPost r => Some (NewsPost.body_html r)
  | OfProfile r => Profile.profile_page_html r
  | OfBlogPost r => BlogPost.body_html r
  end.

(** A caller's assignment to that attribute. *)
Definition with_rendered_html (h : string) (c : ContentRecord) : ContentRecord :=
  match c with
  | OfWebsiteSection r => OfWebsiteSection (WebsiteSection.set_body_html h r)
  | OfNewsPost r => OfNewsPost (NewsPost.set_body_html h r)
  | OfProfile r => OfProfile (Profile.set_profile_page_html h r)
  | OfBlogPost r => OfBlogPost (BlogPost.set_body_html h r)
  end.

(** Whether the class declares a [modified] attribute. *)
Definition declares_modified (c : ContentRecord) : bool :=
  match c with
  | OfWebsiteSection _ | OfNewsPost _ => true
  | OfProfile _ | OfBlogPost _ => false
  end.

(** The value of [modified], where the class has one and it is set. *)
Definition modified_at (c : ContentRecord) : option datetime :=
  match c with
  | OfWebsiteSection r => WebsiteSection.modified r
  | OfNewsPost r => NewsPost.modified r
  | OfProfile _ | OfBlogPost _ => None
  end.

Definition as_instance (c : ContentRecord) : instance :=
  match c with
  | OfWebsiteSection r => AWebsiteSection r
  | OfNewsPost r => ANewsPost r
  | OfProfile r => AProfile r
  | OfBlogPost r => ABlogPost r
  end.

(** The attributes a [save] that returns has assigned: the filtered HTML
    on all four classes, the clock's reading on the two that declare
    [modified]. *)
Definition after_save (html : string) (now : datetime) (c : ContentRecord)
  : ContentRecord :=
  match c with
  | OfWebsiteSection r =>
      OfWebsiteSection
        (WebsiteSection.set_modified now (WebsiteSection.set_body_html html r))
  | OfNewsPost r =>
      OfNewsPost (NewsPost.set_modified now (NewsPost.set_body_html html r))
  | OfProfile r => OfProfile (Profile.set_profile_page_html html r)
  | OfBlogPost r => OfBlogPost (BlogPost.set_body_html html r)
  end.

(** The calls of [print] in a [save], given the output of
    [markdown.markdown]. *)
Definition printed_by (c : ContentRecord) (html_content : string) : list effect :=
  match c with
  | OfWebsiteSection _ | OfNewsPost _ => [Printed html_content]
  | OfProfile _ | OfBlogPost _ => []
  end.

(** ** The module *)

Definition allowed_attrs : list string :=
  ["href"; "class"; "rel"; "alt"; "class"; "src"].

(** The tags the module adds to [bleach.ALLOWED_TAGS]. *)
Definition extra_html_tags : list string :=
  ["p"; "pre"; "table"; "img";
   "h1"; "h2"; "h3"; "h4"; "h5";
   "h6"; "b"; "i"; "strong"; "em";
   "tt"; "br"; "blockquote";
   "code"; "ul"; "ol"; "li";
   "dd"; "dt"; "a"; "tr"; "td";
   "div"; "span"; "hr"].

Section Models.

(** [markdown.markdown(text, extensions=...)]: [text] is a string or
    [None]; the call returns a string or raises. *)
Variable markdown_markdown : option string -> list string -> outcome string.

(** [bleach.clean(text, tags, attributes)] *)
Variable bleach_clean : string -> list string -> list string -> string.

(** [bleach.ALLOWED_TAGS] *)
Variable bleach_ALLOWED_TAGS : list string.

Definition allowed_html_tags : list string :=
  bleach_ALLOWED_TAGS ++ extra_html_tags.

Definition WebsiteSection_save (args : call_args) : M WebsiteSection.t unit :=
  body_markdown <- attr WebsiteSection.body_markdown ;;
  html_content <- call (markdown_markdown (Some body_markdown) ["codehilite"]) ;;
  print html_content ;;;
  assign (WebsiteSection.set_body_html
            (bleach_clean html_content allowed_html_tags allowed_attrs)) ;;;
  now <- datetime_now ;;
  assign (WebsiteSection.set_modified now) ;;;
  cache_clear ;;;
  Model_save AWebsiteSection args.

Definition NewsPost_save (args : call_args) : M NewsPost.t unit :=
  body_markdown <- attr NewsPost.body_markdown ;;
  html_content <- call (markdown_markdown (Some body_markdown) ["codehilite"]) ;;
  print html_content ;;;
  assign (NewsPost.set_body_html
            (bleach_clean html_content allowed_html_tags allowed_attrs)) ;;;
  now <- datetime_now ;;
  assign (NewsPost.set_modified now) ;;;
  cache_clear ;;;
  Model_save ANewsPost args.

Definition Profile_save (args : call_args) : M Profile.t unit :=
  profile_page_markdown <- attr Profile.profile_page_markdown ;;
  html_content <- call (markdown_markdown profile_page_markdown ["codehilite"]) ;;
  assign (Profile.set_profile_page_html
            (bleach_clean html_content allowed_html_tags allowed_attrs)) ;;;
  cache_clear ;;;
  Model_save AProfile args.

Definition BlogPost_save (args : call_args) : M BlogPost.t unit :=
  body <- attr BlogPost.body ;;
  html_content <- call (markdown_markdown (Some body) ["codehilite"]) ;;
  assign (BlogPost.set_body_html
            (bleach_clean html_content allowed_html_tags allowed_attrs)) ;;;
  cache_clear ;;;
  Model_save ABlogPost args.

(** The two library calls that all four [save] bodies make on their
    Markdown attribute, one after the other. *)
Definition render (text : option string) : outcome string :=
  match markdown_markdown text ["codehilite"] with
  | Return html_content =>
      Return (bleach_clean html_content allowed_html_tags allowed_attrs)
  | Raise e => Raise e
  end.

(** [c.save(...)], dispatched on the class of [c]. *)
Definition ContentRecord_save (args : call_args) (c : ContentRecord)
  (w : World) : outcome unit * ContentRecord * World :=
  match c with
  | OfWebsiteSection r =>
      let '(o, r', w') := WebsiteSection_save args r w in
      (o, OfWebsiteSection r', w')
  | OfNewsPost r =>
      let '(o, r', w') := NewsPost_save args r w in (o, OfNewsPost r', w')
  | OfProfile r =>
      let '(o, r', w') := Profile_save args r w in (o, OfProfile r', w')
  | OfBlogPost r =>
      let '(o, r', w') := BlogPost_save args r w in (o, OfBlogPost r', w')
  end.

End Models.

Definition Publication_save (args : call_args) : M Publication.t unit :=
  now <- datetime_now ;;
  assign (Publication.set_modified now) ;;;
  cache_clear ;;;
  Model_save APublication args.

Definition Course_save (args : call_args) : M Course.t unit :=
  now <- datetime_now ;;
  assign (Course.set_modified now) ;;;
  cache_clear ;;;
  Model_save ACourse args.

Definition CarouselImage_save (args : call_args) : M CarouselImage.t unit :=
  now <- datetime_now ;;
  assign (CarouselImage.set_modified now) ;;;
  cache_clear ;;;
  Model_save ACarouselImage args.

(** ** The rest of the module: string methods, the URL of a blog post,
       the profile of a new user *)

Module Position.
Record t := Build { name : string }.
End Position.

Module User.
(** [django.contrib.auth.models.User], as far as the module reads it. *)
Record t := Build { pk : Z; username : string }.
End User.

Definition WebsiteSection_str (r : WebsiteSection.t) : string :=
  WebsiteSection.title r.
Definition NewsPost_str (r : NewsPost.t) : string := NewsPost.title r.
Definition Publication_str (r : Publication.t) : string := Publication.title r.
Definition Course_str (r : Course.t) : string := Course.title r.
Definition CarouselImage_str (r : CarouselImage.t) : string :=
  CarouselImage.image_url r.
Definition Position_str (r : Position.t) : string := Position.name r.
Definition Profile_str (r : Profile.t) : string := Profile.full_name r.
Definition BlogPost_str (r : BlogPost.t) : string := BlogPost.title r.

(** [str(obj)], dispatched on the class. *)
Definition instance_str (i : instance) : string :=
  match i with
  | AWebsiteSection r => WebsiteSection_str r
  | ANewsPost r => NewsPost_str r
  | APublication r => Publication_str r
  | ACourse r => Course_str r
  | ACarouselImage r => CarouselImage_str r
  | AProfile r => Profile_str r
  | ABlogPost r => BlogPost_str r
  end.

(** *** The [%] operator on a format string

    The values it is given here are integers or strings.  The format is
    read left to right; [%i] and [%d] want an integer, [%s] takes
    anything, [%%] is a percent sign; each conversion consumes one value,
    and a value left over or missing is an error. *)

Inductive pyval :=
| PyInt (n : Z)
| PyStr (s : string).

Definition TypeError (msg : string) : exn := Exception "TypeError" msg.
Definition ValueError (msg : string) : exn := Exception "ValueError" msg.

Definition prepend (s : string) (o : outcome string) : outcome string :=
  match o with
  | Return t => Return (s +:+ t)
  | Raise e => Raise e
  end.

Fixpoint percent_format (fmt : string) (values : list pyval) : outcome string :=
  match fmt with
  | EmptyString =>
      match values with
      | [] => Return EmptyString
      | _ :: _ =>
          Raise (TypeError
                   "not all arguments converted during string formatting")
      end
  | String c fmt' =>
      if Ascii.eqb c "%" then
        match fmt' with
        | EmptyString => Raise (ValueError "incomplete format")
        | String k rest =>
            if Ascii.eqb k "%" then prepend "%" (percent_format rest values)
            else if Ascii.eqb k "i" || Ascii.eqb k "d" then
              match values with
              | [] => Raise (TypeError "not enough arguments for format string")
              | PyInt n :: values' =>
                  prepend (pretty n) (percent_format rest values')
              | PyStr _ :: _ =>
                  Raise (TypeError "%i format: a number is required, not str")
              end
            else if Ascii.eqb k "s" then
              match values with
              | [] => Raise (TypeError "not enough arguments for format string")
              | PyInt n :: values' =>
                  prepend (pretty n) (percent_format rest values')
              | PyStr s :: values' =>
                  prepend s (percent_format rest values')
              end
            else Raise (ValueError "unsupported format character")
        end
      else prepend (String c EmptyString) (percent_format fmt' values)
  end.

(** [BlogPost.get_absolute_url]: [identifier] is a slug, a string. *)
Definition BlogPost_get_absolute_url (self : BlogPost.t) : outcome string :=
  percent_format "/blog/%i/" [PyStr (BlogPost.identifier self)].

(** *** The receiver of [post_save] for [User] *)

(** The keyword arguments with which the manager's [create] calls
    [save]: a forced insert on the database it writes to. *)
Definition create_args (db : string) : call_args :=
  CallArgs [] [("force_insert", "True"); ("using", db)].

(** The instance that [create_user_profile] asks the manager to build:
    the three attributes it names, every other one at its default. *)
Definition new_profile (instance : User.t) : Profile.t :=
  Profile.Build (User.pk instance) (User.username instance)
                None None None None None None (Some EmptyString) None.

Section Signals.

Variable markdown_markdown : option string -> list string -> outcome string.
Variable bleach_clean : string -> list string -> list string -> string.
Variable bleach_ALLOWED_TAGS : list string.

(** The alias of the database the manager writes to. *)
Variable db : string.

(** [Profile.objects.create(...)]: the manager builds the instance,
    calls its [save] and returns it. *)
Definition Profile_objects_create (p : Profile.t) (w : World)
  : outcome Profile.t * World :=
  match Profile_save markdown_markdown bleach_clean bleach_ALLOWED_TAGS
                     (create_args db) p w with
  | (Return _, p', w') => (Return p', w')
  | (Raise e, _, w') => (Raise e, w')
  end.

(** [create_user_profile(sender, instance, created)]; [instance.profile]
    is the profile the manager has just created for [instance]. *)
Definition create_user_profile (instance : User.t) (created : bool) (w : World)
  : outcome unit * World :=
  if created then
    match Profile_objects_create (new_profile instance) w with
    | (Return profile, w1) =>
        let '(o, _, w2) :=
          Profile_save markdown_markdown bleach_clean bleach_ALLOWED_TAGS
                       no_args profile w1 in
        (o, w2)
    | (Raise e, w1) => (Raise e, w1)
    end
  else (Return tt, w).

End Signals.

Definition is_Printed (e : effect) : bool :=
  match e with Printed _ => true | _ => false end.

(** ** Reading the order of effects *)

Definition is_ModelSaved (e : effect) : bool :=
  match e with ModelSaved _ _ => true | _ => false end.

Definition is_CacheCleared (e : effect) : bool :=
  match e with CacheCleared => true | _ => false end.

(** Position of the first effect that satisfies [p]. *)
Fixpoint first_index (p : effect -> bool) (tr : list effect) : option nat :=
  match tr with
  | [] => None
  | e :: tr' =>
      if p e then Some 0
      else match first_index p tr' with
           | Some i => Some (S i)
           | None => None
           end
  end.

(** The record reaches the framework, and the cache is cleared later. *)
Definition persisted_then_invalidated (tr : list effect) : bool :=
  match first_index is_ModelSaved tr, first_index is_CacheCleared tr with
  | Some i, Some j => (i <? j)%nat
  | _, _ => false
  end.

(** The cache is cleared, and the record reaches the framework later. *)
Definition invalidated_then_persisted (tr : list effect) : bool :=
  match first_index is_CacheCleared tr, first_index is_ModelSaved tr with
  | Some i, Some j => (i <? j)%nat
  | _, _ => false
  end.

(** How many times the cache is cleared. *)
Definition invalidations (tr : list effect) : nat :=
  length (List.filter is_CacheCleared tr).

(** ** What the framework's save writes

    The rows of a content model, as far as their Markdown and HTML
    columns go.  The framework's [save] writes every column of the
    instance it is handed, unless it is called with [update_fields]:
    then it writes the named columns only, and only to a row that exists;
    an empty list writes nothing, a name that is no field of the model
    is an error that writes nothing.  Whether the database accepts a
    write at all (its constraints, the other arguments of the call) is
    not the module's to decide and is a parameter here. *)

Definition is_blank_char (c : ascii) : bool :=
  let n := nat_of_ascii c in
  (n =? 32)%nat || (n =? 9)%nat || (n =? 10)%nat || (n =? 12)%nat || (n =? 13)%nat.


















(** ** Stand-ins for the libraries

    The theorems below hold for whatever [markdown.markdown] and
    [bleach.clean] compute.  The stand-ins of this section are used only
    to run the [save] bodies on concrete instances. *)

(** The value of [bleach.ALLOWED_TAGS] in the releases where it is a
    list, as [allowed_html_tags] needs it to be. *)
Definition bleach_ALLOWED_TAGS_list : list string :=
  ["a"; "abbr"; "acronym"; "b"; "blockquote"; "code";
   "em"; "i"; "li"; "ol"; "strong"; "ul"].

(** A filter that lets no markup through: [<], [>] and [&] are written
    as character references. *)
Fixpoint escape_markup (s : string) : string :=
  match s with
  | EmptyString => EmptyString
  | String c s' =>
      if Ascii.eqb c "<" then "&lt;" +:+ escape_markup s'
      else if Ascii.eqb c ">" then "&gt;" +:+ escape_markup s'
      else if Ascii.eqb c "&" then "&amp;" +:+ escape_markup s'
      else String c (escape_markup s')
  end.

Definition clean_standin (text : string) (tags attrs : list string) : string :=
  escape_markup text.

Fixpoint is_blank (s : string) : bool :=
  match s with
  | EmptyString => true
  | String c s' => is_blank_char c && is_blank s'
  end.

(** An expander that raises on [None], as a call of [strip] on [None]
    does, returns the empty string on blank text and wraps anything else
    in one paragraph. *)
Definition markdown_standin (text : option string) (extensions : list string)
  : outcome string :=
  match text with
  | None =>
      Raise (Exception "AttributeError"
                       "'NoneType' object has no attribute 'strip'")
  | Some s =>
      if is_blank s then Return EmptyString else Return ("<p>" +:+ s +:+ "</p>")
  end.

Definition world0 : World := MkWorld {["/" := "<html>cached</html>"]} 1700000000%Z [].

Definition section0 : WebsiteSection.t :=
  WebsiteSection.Build "Home" "hello" EmptyString None None "index" "page" false.

Definition blogpost0 : BlogPost.t :=
  BlogPost.Build "First" "first" "<script>alert(1)</script>hello"
                 (Some 1600000000%Z) 1%Z None.

Definition profile0 : Profile.t :=
  Profile.Build 1%Z "ada" None None None None None None None None.

(** Two instances of the same class that agree on every attribute but
    the HTML attribute and [modified]. *)
Definition same_authored_attributes (c c' : ContentRecord) : Prop :=
  match c, c' with
  | OfWebsiteSection r, OfWebsiteSection r' =>
      WebsiteSection.title r' = WebsiteSection.title r /\
      WebsiteSection.body_markdown r' = WebsiteSection.body_markdown r /\
      WebsiteSection.created r' = WebsiteSection.created r /\
      WebsiteSection.website_position_id r' = WebsiteSection.website_position_id r /\
      WebsiteSection.section_type r' = WebsiteSection.section_type r /\
      WebsiteSection.show_in_nav r' = WebsiteSection.show_in_nav r
  | OfNewsPost r, OfNewsPost r' =>
      NewsPost.title r' = NewsPost.title r /\
      NewsPost.body_markdown r' = NewsPost.body_markdown r /\
      NewsPost.description r' = NewsPost.description r /\
      NewsPost.post_date r' = NewsPost.post_date r /\
      NewsPost.created r' = NewsPost.created r
  | OfProfile r, OfProfile r' =>
      Profile.user r' = Profile.user r /\
      Profile.full_name r' = Profile.full_name r /\
      Profile.avatar_img r' = Profile.avatar_img r /\
      Profile.contactNumber r' = Profile.contactNumber r /\
      Profile.emailId r' = Profile.emailId r /\
      Profile.contactURL r' = Profile.contactURL r /\
      Profile.description r' = Profile.description r /\
      Profile.position r' = Profile.position r /\
      Profile.profile_page_markdown r' = Profile.profile_page_markdown r
  | OfBlogPost r, OfBlogPost r' =>
      BlogPost.title r' = BlogPost.title r /\
      BlogPost.identifier r' = BlogPost.identifier r /\
      BlogPost.body r' = BlogPost.body r /\
      BlogPost.posted r' = BlogPost.posted r /\
      BlogPost.author r' = BlogPost.author r
  | _, _ => False
  end.

(** An expander that raises on every input. *)
Definition markdown_raising (text : option string) (extensions : list string)
  : outcome string :=
  Raise (Exception "RuntimeError" "maximum recursion depth exceeded").

Definition newspost0 : NewsPost.t :=
  NewsPost.Build "Talk" "<script>x</script>" "stale" "A talk" 1650000000%Z
                 (Some 1650000000%Z) (Some 1650000000%Z).




Definition user0 : User.t := User.Build 7%Z "grace".

Definition world1 : World :=
  MkWorld {["/news" := "<html>news</html>"]} 1700000000%Z
          [Printed "earlier"; CacheCleared].


(** * Properties *)

Ltac run_body :=
  unfold bind, attr, call, assign, print, datetime_now, cache_clear,
    Model_save, emit; simpl.

Section SaveProperties.

Variable markdown_markdown : option string -> list string -> outcome string.
Variable bleach_clean : string -> list string -> list string -> string.
Variable bleach_ALLOWED_TAGS : list string.

Abbreviation tags := (allowed_html_tags bleach_ALLOWED_TAGS).
Abbreviation render := (render markdown_markdown bleach_clean bleach_ALLOWED_TAGS).
Abbreviation save :=
  (ContentRecord_save markdown_markdown bleach_clean bleach_ALLOWED_TAGS).

(** What a [save] of a content model does, in one equation: nothing if
    [markdown.markdown] raises; otherwise the assignments, the call of
    [print] where there is one, the cleared cache and the call to the
    framework, in that order. *)
Lemma save_unfold args c w :
  save args c w =
  match markdown_markdown (source_text c) ["codehilite"] with
  | Return html_content =>
      let c' := after_save (bleach_clean html_content tags allowed_attrs)
                           (clock w) c in
      (Return tt, c',
       MkWorld ∅ (clock w)
               (effects w ++ printed_by c html_content
                  ++ [CacheCleared; ModelSaved (as_instance c') args]))
  | Raise e => (Raise e, c, w)
  end.
Proof.
  destruct c as [r|r|r|r]; simpl;
    [unfold WebsiteSection_save | unfold NewsPost_save
    | unfold Profile_save | unfold BlogPost_save];
    run_body;
    match goal with
    | |- context [markdown_markdown ?t ?x] =>
        destruct (markdown_markdown t x)
    end; simpl; rewrite <- ?List.app_assoc; reflexivity.
Qed.

Lemma render_unfold text :
  render text =
  match markdown_markdown text ["codehilite"] with
  | Return html_content =>
      Return (bleach_clean html_content tags allowed_attrs)
  | Raise e => Raise e
  end.
Proof. reflexivity. Qed.

(** A [save] that returns is one whose rendering returned, and it
    leaves [after_save] of that rendering. *)
Lemma save_returns args c w c' w' :
  save args c w = (Return tt, c', w') ->
  exists html_content,
    markdown_markdown (source_text c) ["codehilite"] = Return html_content /\
    c' = after_save (bleach_clean html_content tags allowed_attrs) (clock w) c /\
    w' = MkWorld ∅ (clock w)
           (effects w ++ printed_by c html_content
              ++ [CacheCleared; ModelSaved (as_instance c') args]).
Proof.
  rewrite save_unfold.
  destruct (markdown_markdown (source_text c) ["codehilite"]) as [h|e];
    [|discriminate].
  simpl. intros H. injection H as Hc Hw. subst c'.
  exists h. repeat split. now rewrite <- Hw.
Qed.

Lemma source_text_after_save html now c :
  source_text (after_save html now c) = source_text c.
Proof. destruct c; reflexivity. Qed.

Lemma rendered_html_after_save html now c :
  rendered_html (after_save html now c) = Some html.
Proof. destruct c; reflexivity. Qed.







(** The last thing a [save] that returns has done is to hand the
    instance to the framework. *)
Lemma save_hands_over args c w c' w' :
  save args c w = (Return tt, c', w') ->
  last (effects w') = Some (ModelSaved (as_instance c') args).
Proof.
  intros H. destruct (save_returns _ _ _ _ _ H) as (hc & Hmd & Hc & Hw).
  rewrite Hw. simpl.
  replace (effects w ++ printed_by c hc
             ++ [CacheCleared; ModelSaved (as_instance c') args])%list
    with ((effects w ++ printed_by c hc ++ [CacheCleared])
            ++ [ModelSaved (as_instance c') args])%list.
  - apply last_snoc.
  - rewrite <- !List.app_assoc. reflexivity.
Qed.



(** C4. If the rendering of the Markdown attribute raises, the [save]
    raises that same exception to its caller and has done nothing: the
    instance and the world (cache, effects, so no call to the
    framework) are as they were. *)
Theorem render_failure_aborts_save args c w e :
  render (source_text c) = Raise e ->
  save args c w = (Raise e, c, w).
Proof.
  rewrite render_unfold, save_unfold.
  destruct (markdown_markdown (source_text c) ["codehilite"]);
    [discriminate|].
  now intros [= ->].
Qed.

Lemma invalidations_after_prints c x row args :
  invalidations (printed_by c x ++ [CacheCleared; ModelSaved row args]) = 1%nat.
Proof. destruct c; reflexivity. Qed.

Lemma invalidated_then_persisted_after_prints c x row args :
  invalidated_then_persisted
    (printed_by c x ++ [CacheCleared; ModelSaved row args]) = true.
Proof. destruct c; reflexivity. Qed.

(** C5, as the code has it. WebsiteSection and NewsPost declare
    [modified], and the instance that every [save] that returns hands to
    the framework has the reading of the clock in it. Profile and
    BlogPost declare no [modified]. *)
Theorem modified_stamped_where_declared args c w c' w' :
  save args c w = (Return tt, c', w') ->
  exists row,
    last (effects w') = Some (ModelSaved (as_instance row) args) /\
    declares_modified row = declares_modified c /\
    modified_at row = if declares_modified c then Some (clock w) else None.
Proof.
  intros H. exists c'. split; [exact (save_hands_over _ _ _ _ _ H)|].
  destruct (save_returns _ _ _ _ _ H) as (hc & Hmd & -> & Hw).
  destruct c; split; reflexivity.
Qed.

(** C6, as the code has it. A [save] of a content model that returns
    has cleared the whole cache, once, and only then called the
    framework's save, once, on the instance that carries the Markdown as
    it was, the HTML rendered from it and, where declared, [modified]:
    beyond the call of [print] in WebsiteSection and NewsPost, its
    effects are exactly [CacheCleared] followed by [ModelSaved], and the
    cache is empty afterwards. *)
Theorem save_invalidates_once_then_persists args c w c' w' :
  save args c w = (Return tt, c', w') ->
  exists html_content tr,
    markdown_markdown (source_text c) ["codehilite"] = Return html_content /\
    effects w' = (effects w ++ tr)%list /\
    tr = (printed_by c html_content
            ++ [CacheCleared; ModelSaved (as_instance c') args])%list /\
    invalidations tr = 1%nat /\
    invalidated_then_persisted tr = true /\
    cache w' = ∅ /\
    source_text c' = source_text c /\
    rendered_html c' = Some (bleach_clean html_content tags allowed_attrs) /\
    (declares_modified c = true -> modified_at c' = Some (clock w)).
Proof.
  intros H. destruct (save_returns _ _ _ _ _ H) as (hc & Hmd & Hc & Hw).
  exists hc. eexists. split; [exact Hmd|].
  split; [rewrite Hw; reflexivity|].
  split; [reflexivity|].
  split; [apply invalidations_after_prints|].
  split; [apply invalidated_then_persisted_after_prints|].
  split; [rewrite Hw; reflexivity|].
  subst c'. split; [apply source_text_after_save|].
  split; [apply rendered_html_after_save|].
  destruct c; simpl; intros; reflexivity || discriminate.
Qed.

(** C3, the code at a null Markdown attribute. [Profile.save] hands the
    attribute to [markdown.markdown] as it is: when that call raises on
    [None], the [save] raises the same exception and has done nothing. *)
Theorem Profile_save_null_markdown args r w e :
  Profile.profile_page_markdown r = None ->
  markdown_markdown None ["codehilite"] = Raise e ->
  Profile_save markdown_markdown bleach_clean bleach_ALLOWED_TAGS args r w
  = (Raise e, r, w).
Proof.
  intros Hnull Hmd. unfold Profile_save. run_body.
  rewrite Hnull, Hmd. reflexivity.
Qed.

(** The empty string is rendered to the empty string as soon as both
    libraries map the empty string to itself. *)
Lemma render_empty :
  markdown_markdown (Some EmptyString) ["codehilite"] = Return EmptyString ->
  bleach_clean EmptyString tags allowed_attrs = EmptyString ->
  render (Some EmptyString) = Return EmptyString.
Proof. intros Hmd Hcl. rewrite render_unfold, Hmd, Hcl. reflexivity. Qed.

End SaveProperties.

(** C10. The [save] of Publication, of Course and of CarouselImage calls
    no renderer and never raises: it assigns the reading of the clock to
    [modified], clears the whole cache, and then hands the instance to
    the framework's save, the clearing coming first. *)
Theorem plain_models_save_clears_then_persists args w :
  (forall r,
     let r' := Publication.set_modified (clock w) r in
     Publication_save args r w =
       (Return tt, r',
        MkWorld ∅ (clock w)
                (effects w ++ [CacheCleared; ModelSaved (APublication r') args]))
     /\ Publication.modified r' = Some (clock w)) /\
  (forall r,
     let r' := Course.set_modified (clock w) r in
     Course_save args r w =
       (Return tt, r',
        MkWorld ∅ (clock w)
                (effects w ++ [CacheCleared; ModelSaved (ACourse r') args]))
     /\ Course.modified r' = Some (clock w)) /\
  (forall r,
     let r' := CarouselImage.set_modified (clock w) r in
     CarouselImage_save args r w =
       (Return tt, r',
        MkWorld ∅ (clock w)
                (effects w ++ [CacheCleared; ModelSaved (ACarouselImage r') args]))
     /\ CarouselImage.modified r' = Some (clock w)) /\
  (forall row,
     invalidated_then_persisted [CacheCleared; ModelSaved row args] = true /\
     persisted_then_invalidated [CacheCleared; ModelSaved row args] = false /\
     invalidations [CacheCleared; ModelSaved row args] = 1%nat).
Proof.
  repeat split;
    try (unfold Publication_save, Course_save, CarouselImage_save; run_body;
         rewrite <- List.app_assoc; reflexivity).
Qed.

(** ** Where the spec and the code part *)


(** C5 fails at [blogpost0]: its [save] returns, and the instance has no
    [modified] attribute for it to have stamped. *)
Lemma BlogPost_save_stamps_no_modified :
  ~ (forall md clean base args c w c' w',
        ContentRecord_save md clean base args c w = (Return tt, c', w') ->
        declares_modified c' = true /\ modified_at c' = Some (clock w)).
Proof.
  intros H.
  edestruct (H markdown_standin clean_standin bleach_ALLOWED_TAGS_list
               no_args (OfBlogPost blogpost0) world0) as [Hd _];
    [reflexivity|].
  discriminate Hd.
Qed.

(** C6 fails at [section0]: its [save] returns, and among its effects
    the cache is cleared before, not after, the instance reaches the
    framework. *)
Lemma WebsiteSection_save_clears_before_persisting :
  ~ (forall md clean base args c w c' w',
        ContentRecord_save md clean base args c w = (Return tt, c', w') ->
        exists tr,
          effects w' = (effects w ++ tr)%list /\
          persisted_then_invalidated tr = true /\
          invalidations tr = 1%nat).
Proof.
  intros H.
  edestruct (H markdown_standin clean_standin bleach_ALLOWED_TAGS_list
               no_args (OfWebsiteSection section0) world0)
    as (tr & Htr & Hord & _); [reflexivity|].
  simpl in Htr. subst tr. discriminate Hord.
Qed.

(** ** The theorems at concrete instances *)

Abbreviation save0 :=
  (ContentRecord_save markdown_standin clean_standin bleach_ALLOWED_TAGS_list).
Abbreviation render0 :=
  (render markdown_standin clean_standin bleach_ALLOWED_TAGS_list).
Abbreviation tags0 := (allowed_html_tags bleach_ALLOWED_TAGS_list).


Lemma Profile_save_null_markdown_witness :
  Profile.profile_page_markdown profile0 = None /\
  Profile_save markdown_standin clean_standin bleach_ALLOWED_TAGS_list
               no_args profile0 world0
  = (Raise (Exception "AttributeError"
                      "'NoneType' object has no attribute 'strip'"),
     profile0, world0).
Proof.
  split; [reflexivity|].
  apply (Profile_save_null_markdown markdown_standin clean_standin
           bleach_ALLOWED_TAGS_list no_args profile0 world0); reflexivity.
Defined.

Lemma render_failure_aborts_save_witness :
  render0 (source_text (OfProfile profile0))
  = Raise (Exception "AttributeError"
                     "'NoneType' object has no attribute 'strip'") /\
  save0 no_args (OfProfile profile0) world0
  = (Raise (Exception "AttributeError"
                      "'NoneType' object has no attribute 'strip'"),
     OfProfile profile0, world0).
Proof.
  split; [reflexivity|].
  apply (render_failure_aborts_save markdown_standin clean_standin
           bleach_ALLOWED_TAGS_list no_args (OfProfile profile0) world0).
  reflexivity.
Defined.

Lemma modified_stamped_where_declared_witness :
  exists c' w',
    save0 no_args (OfWebsiteSection section0) world0 = (Return tt, c', w') /\
    exists row,
      last (effects w') = Some (ModelSaved (as_instance row) no_args) /\
      declares_modified row = true /\
      modified_at row = Some 1700000000%Z.
Proof.
  eexists. eexists. split; [reflexivity|].
  eapply (modified_stamped_where_declared markdown_standin clean_standin
            bleach_ALLOWED_TAGS_list no_args (OfWebsiteSection section0) world0).
  reflexivity.
Defined.

Lemma save_invalidates_once_then_persists_witness :
  exists c' w',
    save0 no_args (OfWebsiteSection section0) world0 = (Return tt, c', w') /\
    exists html_content tr,
      markdown_standin (source_text (OfWebsiteSection section0)) ["codehilite"]
      = Return html_content /\
      effects w' = (effects world0 ++ tr)%list /\
      tr = (printed_by (OfWebsiteSection section0) html_content
              ++ [CacheCleared; ModelSaved (as_instance c') no_args])%list /\
      invalidations tr = 1%nat /\
      invalidated_then_persisted tr = true /\
      cache w' = ∅ /\
      source_text c' = source_text (OfWebsiteSection section0) /\
      rendered_html c' = Some (clean_standin html_content tags0 allowed_attrs) /\
      (declares_modified (OfWebsiteSection section0) = true ->
       modified_at c' = Some (clock world0)).
Proof.
  eexists. eexists. split; [reflexivity|].
  eapply (save_invalidates_once_then_persists markdown_standin clean_standin
            bleach_ALLOWED_TAGS_list no_args (OfWebsiteSection section0) world0).
  reflexivity.
Defined.

(** * Further properties of the module *)

Section MoreSaveProperties.

Variable markdown_markdown : option string -> list string -> outcome string.
Variable bleach_clean : string -> list string -> list string -> string.
Variable bleach_ALLOWED_TAGS : list string.

Abbreviation tags := (allowed_html_tags bleach_ALLOWED_TAGS).
Abbreviation save :=
  (ContentRecord_save markdown_markdown bleach_clean bleach_ALLOWED_TAGS).
Abbreviation unfold_save :=
  (save_unfold markdown_markdown bleach_clean bleach_ALLOWED_TAGS).
Abbreviation returned_save :=
  (save_returns markdown_markdown bleach_clean bleach_ALLOWED_TAGS).

Lemma after_save_after_save h t h' t' c :
  after_save h t (after_save h' t' c) = after_save h t c.
Proof. destruct c as [r|r|r|r]; destruct r; reflexivity. Qed.

Lemma printed_by_after_save h t c x :
  printed_by (after_save h t c) x = printed_by c x.
Proof. destruct c; reflexivity. Qed.

Lemma same_authored_attributes_after_save h t c :
  same_authored_attributes c (after_save h t c).
Proof. destruct c as [r|r|r|r]; simpl; repeat split. Qed.

Lemma instance_str_after_save h t c :
  instance_str (as_instance (after_save h t c)) = instance_str (as_instance c).
Proof. destruct c as [r|r|r|r]; reflexivity. Qed.

(** X1. The instance that a [save] of a content model hands to the
    framework is of the class of the instance [save] was called on and
    differs from it in the HTML attribute and, where declared, in
    [modified] only; what [__str__] returns of it is as it was. *)
Theorem save_changes_only_derived_attributes args c w c' w' :
  save args c w = (Return tt, c', w') ->
  exists row,
    last (effects w') = Some (ModelSaved (as_instance row) args) /\
    same_authored_attributes c row /\
    instance_str (as_instance row) = instance_str (as_instance c).
Proof.
  intros H. exists c'.
  split; [exact (save_hands_over _ _ _ _ _ _ _ _ H)|].
  destruct (returned_save _ _ _ _ _ H) as (hc & _ & -> & _).
  split; [apply same_authored_attributes_after_save|].
  apply instance_str_after_save.
Qed.

(** X2. A [save] of a content model reads neither the HTML attribute nor
    [modified]: where the [save] of an instance returns, the [save] of
    that instance with any other values in the two attributes returns
    the same, leaves the same instance and does the same to the world. *)
Theorem save_overwrites_derived_attributes args h t c w c' w' :
  save args c w = (Return tt, c', w') ->
  save args (after_save h t c) w = (Return tt, c', w').
Proof.
  intros H. destruct (returned_save _ _ _ _ _ H) as (hc & Hmd & Hc & Hw).
  rewrite unfold_save, source_text_after_save, Hmd. simpl.
  rewrite after_save_after_save, printed_by_after_save, <- Hc.
  now rewrite Hw.
Qed.

(** X3. WebsiteSection and NewsPost call [print] once per [save] that
    returns, and its argument is the output of [markdown.markdown] as it
    is, not the HTML that [bleach.clean] has filtered; Profile and
    BlogPost do not call [print]. *)
Theorem save_prints_unfiltered_expansion args c w c' w' :
  save args c w = (Return tt, c', w') ->
  exists html_content tr,
    markdown_markdown (source_text c) ["codehilite"] = Return html_content /\
    effects w' = (effects w ++ tr)%list /\
    List.filter is_Printed tr =
      match c with
      | OfWebsiteSection _ | OfNewsPost _ => [Printed html_content]
      | OfProfile _ | OfBlogPost _ => []
      end.
Proof.
  intros H. destruct (returned_save _ _ _ _ _ H) as (hc & Hmd & Hc & Hw).
  exists hc. eexists. split; [exact Hmd|].
  split; [rewrite Hw; reflexivity|].
  destruct c; reflexivity.
Qed.

Lemma same_authored_attributes_source c1 c2 :
  same_authored_attributes c1 c2 -> source_text c1 = source_text c2.
Proof.
  destruct c1 as [r1|r1|r1|r1], c2 as [r2|r2|r2|r2]; simpl;
    try contradiction; intros H; decompose [and] H; congruence.
Qed.

Lemma same_authored_attributes_after_save_eq h t c1 c2 :
  same_authored_attributes c1 c2 -> after_save h t c1 = after_save h t c2.
Proof.
  destruct c1 as [r1|r1|r1|r1], c2 as [r2|r2|r2|r2]; simpl;
    try contradiction; destruct r1, r2; simpl;
    intros H; decompose [and] H; subst; reflexivity.
Qed.

(** X4. The instance that a [save] of a content model hands to the
    framework is decided by the attributes other than the HTML and
    [modified] and by the reading of the clock: two instances that agree
    on those attributes, saved at the same reading, hand over the same
    instance, whatever the cache holds, whatever was done before and
    whatever arguments are forwarded. *)
Theorem save_hands_over_same_row a1 a2 c1 c2 w1 w2 c1' c2' w1' w2' :
  same_authored_attributes c1 c2 ->
  clock w1 = clock w2 ->
  save a1 c1 w1 = (Return tt, c1', w1') ->
  save a2 c2 w2 = (Return tt, c2', w2') ->
  exists row,
    last (effects w1') = Some (ModelSaved row a1) /\
    last (effects w2') = Some (ModelSaved row a2).
Proof.
  intros Hsame Hclock H1 H2. exists (as_instance c1').
  split; [exact (save_hands_over _ _ _ _ _ _ _ _ H1)|].
  rewrite (save_hands_over _ _ _ _ _ _ _ _ H2). do 2 f_equal.
  destruct (returned_save _ _ _ _ _ H1) as (hc1 & Hmd1 & -> & _).
  destruct (returned_save _ _ _ _ _ H2) as (hc2 & Hmd2 & -> & _).
  rewrite (same_authored_attributes_source _ _ Hsame), Hmd2 in Hmd1.
  injection Hmd1 as <-. rewrite Hclock.
  f_equal. symmetry. now apply same_authored_attributes_after_save_eq.
Qed.

Section Receiver.

Variable db : string.

Abbreviation receiver :=
  (create_user_profile markdown_markdown bleach_clean bleach_ALLOWED_TAGS db).

(** X5. For a user that has just been created, and when the expansion of
    the empty string returns, the receiver saves the new profile twice
    and clears the cache twice: once in the manager's [create], with a
    forced insert, once in the [save] that follows; both times the
    profile has the empty string, not [None], as its Markdown, and the
    same HTML. *)
Theorem create_user_profile_saves_twice instance w html_content :
  markdown_markdown (Some EmptyString) ["codehilite"] = Return html_content ->
  let profile :=
    Profile.set_profile_page_html
      (bleach_clean html_content tags allowed_attrs) (new_profile instance) in
  receiver instance true w =
    (Return tt,
     MkWorld ∅ (clock w)
             (effects w ++ [CacheCleared;
                            ModelSaved (AProfile profile) (create_args db);
                            CacheCleared;
                            ModelSaved (AProfile profile) no_args])).
Proof.
  intros Hmd. unfold create_user_profile, Profile_objects_create, Profile_save.
  run_body. rewrite Hmd. simpl. rewrite Hmd. simpl.
  rewrite <- !List.app_assoc. reflexivity.
Qed.

(** X6. When the expansion of the empty string raises, the receiver raises
    the same exception for a user that has just been created, and in no
    case has it saved a profile or cleared the cache; for a user that
    was only updated it returns without doing anything. *)
Theorem create_user_profile_failure instance w e created :
  markdown_markdown (Some EmptyString) ["codehilite"] = Raise e ->
  receiver instance created w = (if created then Raise e else Return tt, w).
Proof.
  intros Hmd. destruct created; [|reflexivity].
  unfold create_user_profile, Profile_objects_create, Profile_save.
  run_body. rewrite Hmd. reflexivity.
Qed.

End Receiver.

End MoreSaveProperties.

(** X7. The [save] of Publication, Course and CarouselImage overwrites an
    earlier [modified]: an instance stamped at any time is saved exactly
    as the unstamped one; and it leaves what [__str__] returns as it
    was. *)
Theorem plain_models_save_overwrites_stamp args t w :
  (forall r,
     Publication_save args (Publication.set_modified t r) w
     = Publication_save args r w /\
     Publication_str (snd (fst (Publication_save args r w)))
     = Publication_str r) /\
  (forall r,
     Course_save args (Course.set_modified t r) w = Course_save args r w /\
     Course_str (snd (fst (Course_save args r w))) = Course_str r) /\
  (forall r,
     CarouselImage_save args (CarouselImage.set_modified t r) w
     = CarouselImage_save args r w /\
     CarouselImage_str (snd (fst (CarouselImage_save args r w)))
     = CarouselImage_str r).
Proof.
  repeat split; destruct r; reflexivity.
Qed.

(** With an integer the format of [get_absolute_url] gives the path of
    the post. *)
Lemma blog_url_format_on_integer n :
  percent_format "/blog/%i/" [PyInt n] = Return ("/blog/" +:+ pretty n +:+ "/").
Proof. reflexivity. Qed.

(** X8. [get_absolute_url] returns for no blog post: [identifier] is a slug,
    [%i] wants a number, and the formatting raises [TypeError]. *)
Theorem BlogPost_get_absolute_url_raises self :
  exists e,
    BlogPost_get_absolute_url self = Raise e /\ exn_class e = "TypeError".
Proof. eexists. split; reflexivity. Qed.

(** ** The further theorems at concrete instances *)

Lemma save_changes_only_derived_attributes_witness :
  exists c' w',
    save0 no_args (OfWebsiteSection section0) world1 = (Return tt, c', w') /\
    exists row,
      last (effects w') = Some (ModelSaved (as_instance row) no_args) /\
      same_authored_attributes (OfWebsiteSection section0) row /\
      instance_str (as_instance row)
      = instance_str (as_instance (OfWebsiteSection section0)).
Proof.
  eexists. eexists. split; [reflexivity|].
  eapply (save_changes_only_derived_attributes markdown_standin clean_standin
            bleach_ALLOWED_TAGS_list no_args (OfWebsiteSection section0) world1).
  reflexivity.
Defined.

Lemma save_overwrites_derived_attributes_witness :
  exists c' w',
    save0 no_args (OfNewsPost newspost0) world1 = (Return tt, c', w') /\
    save0 no_args (after_save "stale" 5%Z (OfNewsPost newspost0)) world1
    = (Return tt, c', w').
Proof.
  eexists. eexists. split; [reflexivity|].
  eapply (save_overwrites_derived_attributes markdown_standin clean_standin
            bleach_ALLOWED_TAGS_list no_args "stale" 5%Z
            (OfNewsPost newspost0) world1).
  reflexivity.
Defined.

Lemma save_hands_over_same_row_witness :
  same_authored_attributes (OfNewsPost newspost0)
                           (with_rendered_html "other" (OfNewsPost newspost0)) /\
  clock world0 = clock world1 /\
  exists c1' w1' c2' w2',
    save0 no_args (OfNewsPost newspost0) world0 = (Return tt, c1', w1') /\
    save0 (create_args "default")
          (with_rendered_html "other" (OfNewsPost newspost0)) world1
    = (Return tt, c2', w2') /\
    exists row,
      last (effects w1') = Some (ModelSaved row no_args) /\
      last (effects w2') = Some (ModelSaved row (create_args "default")).
Proof.
  split; [simpl; repeat split|]. split; [reflexivity|].
  do 4 eexists. split; [reflexivity|]. split; [reflexivity|].
  eapply (save_hands_over_same_row markdown_standin clean_standin
            bleach_ALLOWED_TAGS_list no_args (create_args "default")
            (OfNewsPost newspost0)
            (with_rendered_html "other" (OfNewsPost newspost0))
            world0 world1);
    [simpl; repeat split | reflexivity | reflexivity | reflexivity].
Defined.

Lemma save_prints_unfiltered_expansion_witness :
  exists c' w',
    save0 no_args (OfNewsPost newspost0) world1 = (Return tt, c', w') /\
    exists html_content tr,
      markdown_standin (source_text (OfNewsPost newspost0)) ["codehilite"]
      = Return html_content /\
      effects w' = (effects world1 ++ tr)%list /\
      List.filter is_Printed tr = [Printed html_content].
Proof.
  eexists. eexists. split; [reflexivity|].
  eapply (save_prints_unfiltered_expansion markdown_standin clean_standin
            bleach_ALLOWED_TAGS_list no_args (OfNewsPost newspost0) world1).
  reflexivity.
Defined.

Lemma create_user_profile_saves_twice_witness :
  markdown_standin (Some EmptyString) ["codehilite"] = Return EmptyString /\
  let profile :=
    Profile.set_profile_page_html
      (clean_standin EmptyString tags0 allowed_attrs) (new_profile user0) in
  create_user_profile markdown_standin clean_standin bleach_ALLOWED_TAGS_list
                      "default" user0 true world1
  = (Return tt,
     MkWorld ∅ (clock world1)
             (effects world1 ++ [CacheCleared;
                                 ModelSaved (AProfile profile) (create_args "default");
                                 CacheCleared;
                                 ModelSaved (AProfile profile) no_args])).
Proof.
  split; [reflexivity|].
  apply (create_user_profile_saves_twice markdown_standin clean_standin
           bleach_ALLOWED_TAGS_list "default" user0 world1 EmptyString).
  reflexivity.
Defined.

Lemma create_user_profile_failure_witness :
  markdown_raising (Some EmptyString) ["codehilite"]
  = Raise (Exception "RuntimeError" "maximum recursion depth exceeded") /\
  create_user_profile markdown_raising clean_standin bleach_ALLOWED_TAGS_list
                      "default" user0 true world1
  = (Raise (Exception "RuntimeError" "maximum recursion depth exceeded"),
     world1).
Proof.
  split; [reflexivity|].
  apply (create_user_profile_failure markdown_raising clean_standin
           bleach_ALLOWED_TAGS_list "default" user0 world1
           (Exception "RuntimeError" "maximum recursion depth exceeded") true).
  reflexivity.
Defined.
